(** * sage.features.latex: feature probes for the LaTeX tool chain

    A shallow embedding of [src/sage/features/latex.py].  Python text is
    a [string] whose characters are the code points below 256; integers
    are [Z]; the file system, the per-feature result cache and the log of
    external invocations are threaded through an explicit state, and a
    Python exception is the [Raise] outcome of a small state-and-error
    monad. *)

From Stdlib Require Import ZArith Ascii String DecimalString DecimalZ Lia.
From stdpp Require Import gmap strings list fin_maps.

Local Open Scope Z_scope.

(** ** Python text primitives used by the module *)

Module Py.

Definition code (c : ascii) : N := N_of_ascii c.

Definition chr (n : N) : ascii := ascii_of_N n.

Definition str1 (c : ascii) : string := String c EmptyString.

Definition squote : ascii := chr 39.
Definition dquote : ascii := chr 34.
Definition newline : ascii := chr 10.

(** [str.isspace] on one character, for code points below 256:
    TAB..CR, FS..US, SPACE, NEL and NBSP. *)
Definition isspace (c : ascii) : bool :=
  let n := code c in
  ((9 <=? n) && (n <=? 13) || (28 <=? n) && (n <=? 32)
   || (n =? 133) || (n =? 160))%N.

Definition is_empty (s : string) : bool :=
  match s with EmptyString => true | String _ _ => false end.

Fixpoint lstrip_by (p : ascii -> bool) (s : string) : string :=
  match s with
  | EmptyString => EmptyString
  | String c s' => if p c then lstrip_by p s' else s
  end.

Fixpoint rstrip_by (p : ascii -> bool) (s : string) : string :=
  match s with
  | EmptyString => EmptyString
  | String c s' =>
      let r := rstrip_by p s' in
      if p c && is_empty r then EmptyString else String c r
  end.

(** [s.lstrip()], [s.rstrip()] and [s.strip()] without argument. *)
Definition lstrip : string -> string := lstrip_by isspace.
Definition rstrip : string -> string := rstrip_by isspace.
Definition strip (s : string) : string := rstrip (lstrip s).

(** [s.rstrip(sep)] for a one-character [sep]. *)
Definition rstrip_char (sep : ascii) : string -> string :=
  rstrip_by (Ascii.eqb sep).

(** [s.replace(old, new)] for one-character [old] and [new]. *)
Fixpoint replace (old new : ascii) (s : string) : string :=
  match s with
  | EmptyString => EmptyString
  | String c s' =>
      String (if Ascii.eqb c old then new else c) (replace old new s')
  end.

(** [sep.join(parts)]. *)
Definition join (sep : string) (parts : list string) : string :=
  String.concat sep parts.

(** [c in s]. *)
Fixpoint mem (c : ascii) (s : string) : bool :=
  match s with
  | EmptyString => false
  | String d s' => Ascii.eqb c d || mem c s'
  end.

(** [needle in s] for text. *)
Fixpoint contains (needle s : string) : bool :=
  String.prefix needle s
  || match s with
     | EmptyString => false
     | String _ s' => contains needle s'
     end.

Definition hexdigit (n : N) : ascii :=
  if (n <? 10)%N then chr (48 + n) else chr (87 + n).

(** The [\xhh] escape of [repr]. *)
Definition hex_escape (c : ascii) : string :=
  String "\" (String "x"
    (String (hexdigit (code c / 16)) (str1 (hexdigit (code c mod 16))))).

(** Code points below 256 that [repr] writes as themselves. *)
Definition isprintable (c : ascii) : bool :=
  let n := code c in
  ((32 <=? n) && (n <? 127) || (161 <=? n) && negb (n =? 173))%N.

Definition repr_char (quote c : ascii) : string :=
  if Ascii.eqb c quote || Ascii.eqb c "\" then String "\" (str1 c)
  else if (code c =? 9)%N then "\t"
  else if (code c =? 10)%N then "\n"
  else if (code c =? 13)%N then "\r"
  else if isprintable c then str1 c
  else hex_escape c.

Fixpoint repr_body (quote : ascii) (s : string) : string :=
  match s with
  | EmptyString => EmptyString
  | String c s' => repr_char quote c +:+ repr_body quote s'
  end.

(** [repr(s)], the [!r] conversion of [str.format]: single quotes
    unless the text holds a single quote and no double quote. *)
Definition repr (s : string) : string :=
  let quote : ascii :=
    if mem squote s && negb (mem dquote s) then dquote else squote in
  String quote (repr_body quote s +:+ str1 quote).

(** Every character of [s] satisfies [p]. *)
Fixpoint all_chars (p : ascii -> bool) (s : string) : bool :=
  match s with
  | EmptyString => true
  | String c s' => p c && all_chars p s'
  end.

(** Characters that [repr] neither escapes nor lets decide the quote. *)
Definition plain (c : ascii) : bool :=
  isprintable c && negb (Ascii.eqb c squote) && negb (Ascii.eqb c dquote)
  && negb (Ascii.eqb c "\").

(** ["{}".format(n)] for an integer. *)
Definition format_int (n : Z) : string :=
  NilZero.string_of_int (Z.to_int n).

Definition sep : ascii := "/".

(** Index split of [posixpath.split]: [p[:i], p[i:]] with
    [i = p.rfind('/') + 1]. *)
Fixpoint rsplit_sep (p : string) : string * string :=
  match p with
  | EmptyString => (EmptyString, EmptyString)
  | String c p' =>
      let '(h, t) := rsplit_sep p' in
      if negb (is_empty h) then (String c h, t)
      else if Ascii.eqb c sep then (str1 c, t)
      else (EmptyString, String c t)
  end.

Definition all_sep (s : string) : bool :=
  is_empty (lstrip_by (Ascii.eqb sep) s).

(** [os.path.split] (POSIX flavour). *)
Definition os_path_split (p : string) : string * string :=
  let '(head, tail) := rsplit_sep p in
  let head :=
    if negb (is_empty head) && negb (all_sep head)
    then rstrip_char sep head else head in
  (head, tail).

End Py.

(** ** Data model *)

(** An [Executable] feature: a program looked up on the search path,
    with its installation hints. *)
Record Executable := {
  Executable_name : string;
  executable : string;
  spkg : string;
  url : string
}.

(** A [TeXFile]: a [StaticFile] that is also a [JoinFeature] over
    [_features].  The installation hints, which both base initialisers
    receive, are opaque annotations and are left out. *)
Record TeXFile := {
  TeXFile_name : string;
  _features : list Executable;
  filename : string;
  search_path : list string
}.

Inductive Feature :=
| IsExecutable (e : Executable)
| IsTeXFile (t : TeXFile).

Coercion IsExecutable : Executable >-> Feature.
Coercion IsTeXFile : TeXFile >-> Feature.

Definition name (f : Feature) : string :=
  match f with
  | IsExecutable e => Executable_name e
  | IsTeXFile t => TeXFile_name t
  end.

(** [FeatureTestResult(feature, is_present, reason=None)]. *)
Record FeatureTestResult := {
  feature : Feature;
  is_present : bool;
  reason : option string
}.

(** Truth value of a result, as tested by [if not test]. *)
Definition __bool__ (r : FeatureTestResult) : bool := is_present r.

(** What is handed to [subprocess.run]: an argument vector, or one line
    for the shell ([shell=True]). *)
Inductive Command :=
| Argv (args : list string)
| Shell (line : string).

Record CompletedProcess := {
  returncode : Z;
  stdout : string;
  stderr : string
}.

Inductive exn :=
| CalledProcessError (rc : Z) (cmd : Command)
| OSError
| FeatureNotPresentError (f : Feature) (why : string).

Inductive Result (A : Type) :=
| Ok (a : A)
| Raise (e : exn).

Arguments Ok {A} a.
Arguments Raise {A} e.

(** External invocations, in the order they happen. *)
Inductive Event :=
| EWhich (cmd : string)
| ERun (cmd : Command) (cwd : option string).

(** The file system: path to content. *)
Abbreviation FS := (gmap string string).

(** What the module takes from outside: the operating system, and two
    helpers of the library that live outside [latex.py].
    - [which]: the search-path lookup of a program name;
    - [spawn]: a child process; [None] when it cannot be launched,
      otherwise how it completed (a death by signal [n] is return code
      [-n]) and the file system it leaves;
    - [mktemp]: the path [tmp_filename] hands out on its [n]-th call for
      an extension;
    - [not_found_reason]: the reason text the [Executable] base class
      gives when the lookup of its program fails. *)
Record Env := {
  which : string -> option string;
  spawn : Command -> option string -> FS -> option (CompletedProcess * FS);
  mktemp : nat -> string -> string;
  not_found_reason : string -> string
}.

Record World := {
  fs : FS;
  tmp_count : nat;
  cache : gmap string FeatureTestResult;
  trace : list Event
}.

Definition set_fs (w : World) (v : FS) : World :=
  {| fs := v; tmp_count := tmp_count w; cache := cache w; trace := trace w |}.

Definition set_tmp_count (w : World) (n : nat) : World :=
  {| fs := fs w; tmp_count := n; cache := cache w; trace := trace w |}.

Definition set_cache (w : World) (c : gmap string FeatureTestResult) : World :=
  {| fs := fs w; tmp_count := tmp_count w; cache := c; trace := trace w |}.

Definition log (w : World) (e : Event) : World :=
  {| fs := fs w; tmp_count := tmp_count w; cache := cache w;
     trace := trace w ++ [e] |}.

(** ** State and exceptions *)

Definition M (A : Type) : Type := World -> Result A * World.

Definition ret {A} (a : A) : M A := fun w => (Ok a, w).

Definition raise {A} (e : exn) : M A := fun w => (Raise e, w).

Definition bind {A B} (m : M A) (k : A -> M B) : M B :=
  fun w =>
    match m w with
    | (Ok a, w') => k a w'
    | (Raise e, w') => (Raise e, w')
    end.

(** [try: m  except <handled>: h]; [h e = None] lets [e] propagate. *)
Definition try_except {A} (m : M A) (h : exn -> option (M A)) : M A :=
  fun w =>
    match m w with
    | (Ok a, w') => (Ok a, w')
    | (Raise e, w') =>
        match h e with
        | Some k => k w'
        | None => (Raise e, w')
        end
    end.

Notation "'let*' x ':=' m 'in' k" := (bind m (fun x => k))
  (at level 10, x pattern, m at level 100, k at level 200).

(** ** Primitives of the run-time *)

Section Primitives.

Variable env : Env.

(** [shutil.which(cmd)]. *)
Definition shutil_which (cmd : string) : M (option string) :=
  fun w => (Ok (which env cmd), log w (EWhich cmd)).

(** [subprocess.run(cmd, cwd=cwd, check=check)].  A process that cannot
    be launched raises [OSError]; with [check], a non-zero return code
    raises [CalledProcessError]. *)
Definition run (cmd : Command) (cwd : option string) (check : bool)
  : M CompletedProcess :=
  fun w =>
    let w1 := log w (ERun cmd cwd) in
    match spawn env cmd cwd (fs w1) with
    | None => (Raise OSError, w1)
    | Some (proc, fs') =>
        let w2 := set_fs w1 fs' in
        if check && negb (returncode proc =? 0)
        then (Raise (CalledProcessError (returncode proc) cmd), w2)
        else (Ok proc, w2)
    end.

(** [tmp_filename(ext=ext)]. *)
Definition tmp_filename (ext : string) : M string :=
  fun w =>
    (Ok (mktemp env (tmp_count w) ext),
     set_tmp_count w (S (tmp_count w))).

(** [with open(path, 'w') as f: f.write(content)]. *)
Definition write_text (path content : string) : M unit :=
  fun w => (Ok tt, set_fs w (<[path := content]> (fs w))).

End Primitives.

(** ** The base classes *)

Module Feature.

(** Modelled from the spec: [Feature.is_present] belongs to the base
    module of the package, outside [latex.py].  The cache
    is consulted first; on a miss the kind-specific check
    [self._is_present()] runs, its result is stored under the probe's
    name and returned.  Nothing is stored when the check raises. *)
Definition is_present (self : Feature) (_is_present : M FeatureTestResult)
  : M FeatureTestResult :=
  fun w =>
    match cache w !! name self with
    | Some res => (Ok res, w)
    | None =>
        match _is_present w with
        | (Ok res, w') =>
            (Ok res, set_cache w' (<[name self := res]> (cache w')))
        | (Raise e, w') => (Raise e, w')
        end
    end.

End Feature.

Module FileFeature.

(** Modelled from the spec: [FileFeature._is_present], inherited by
    [Executable] and [StaticFile], is defined outside [latex.py].  The
    feature is present when [self.absolute_filename()] yields a path;
    the distinguished not-present error becomes a negative result
    carrying the same reason text.  Any other exception is not
    handled. *)
Definition _is_present (self : Feature) (absolute_filename : M string)
  : M FeatureTestResult :=
  try_except
    (let* abspath := absolute_filename in
     ret {| feature := self; is_present := true; reason := None |})
    (fun e =>
       match e with
       | FeatureNotPresentError _ why =>
           Some (ret {| feature := self; is_present := false;
                        reason := Some why |})
       | _ => None
       end).

End FileFeature.

Module Executable.

Definition __init__ (name executable spkg url : string) : Executable :=
  {| Executable_name := name; executable := executable;
     spkg := spkg; url := url |}.

(** Modelled from the spec: the existence check of [Executable] is
    defined outside [latex.py].  It resolves the program on the search
    path and starts no process; a failed lookup is the distinguished
    not-present error. *)
Definition absolute_filename (env : Env) (self : Executable) : M string :=
  let* path := shutil_which env (executable self) in
  match path with
  | Some p => ret p
  | None =>
      raise (FeatureNotPresentError self
               (not_found_reason env (executable self)))
  end.

(** The inherited [_is_present] and [is_present] of an executable. *)
Definition _is_present (env : Env) (self : Executable)
  : M FeatureTestResult :=
  FileFeature._is_present self (absolute_filename env self).

Definition is_present (env : Env) (self : Executable)
  : M FeatureTestResult :=
  Feature.is_present self (_is_present env self).

End Executable.

(** ** The module *)

Definition latex_url : string := "https://www.latex-project.org/".
Definition latex_spkg : string := "texlive".

Module LaTeX.

Definition __init__ (name : string) : Executable :=
  Executable.__init__ name name latex_spkg latex_url.

Definition lines : list string :=
  [ "\documentclass{article}";
    "\begin{document}";
    "$\alpha+2$";
    "\end{document}" ].

Definition content : string := Py.join (Py.str1 Py.newline) lines.

Definition failure_reason (rc : Z) : string :=
  "Running latex on " +:+ "a sample file returned non-zero "
  +:+ "exit status " +:+ Py.format_int rc.

Definition is_functional (env : Env) (self : Executable)
  : M FeatureTestResult :=
  (* create a simple tex file with the content *)
  let* base_filename_tex := tmp_filename env ".tex" in
  let* _ := write_text base_filename_tex content in
  let '(base, filename_tex) := Py.os_path_split base_filename_tex in
  (* running latex *)
  let cmd := [name self; "-interaction=nonstopmode"; filename_tex] in
  let cmd := Py.join " " cmd in
  let* result := run env (Shell cmd) (Some base) false in
  (* return *)
  if returncode result =? 0 then
    ret {| feature := self; is_present := true; reason := None |}
  else
    ret {| feature := self; is_present := false;
           reason := Some (failure_reason (returncode result)) |}.

End LaTeX.

Definition latex : Executable := LaTeX.__init__ "latex".
Definition pdflatex : Executable := LaTeX.__init__ "pdflatex".
Definition xelatex : Executable := LaTeX.__init__ "xelatex".
Definition lualatex : Executable := LaTeX.__init__ "lualatex".

Module JoinFeature.

(** Modelled from the spec: [JoinFeature._is_present] is defined
    outside [latex.py].  The members are asked in declaration order through
    their cached presence query; the first negative result ends the
    loop and is returned as it is; when all are present the join
    itself reports present. *)
Fixpoint _is_present_loop (env : Env) (self : Feature)
    (features : list Executable) : M FeatureTestResult :=
  match features with
  | [] => ret {| feature := self; is_present := true; reason := None |}
  | f :: rest =>
      let* test := Executable.is_present env f in
      if negb (__bool__ test) then ret test
      else _is_present_loop env self rest
  end.

Definition _is_present (env : Env) (self : TeXFile)
  : M FeatureTestResult :=
  _is_present_loop env self (_features self).

End JoinFeature.

Module TeXFile.

Definition __init__ (name filename : string) : TeXFile :=
  {| TeXFile_name := name; _features := [pdflatex];
     filename := filename; search_path := [] |}.

(** Modelled from the spec: [__classcall__] comes from the unique
    representation base class, outside [latex.py]: construct or reuse.
    Features are values here, so reuse is construction. *)
Definition __classcall__ (name filename : string) : TeXFile :=
  __init__ name filename.

Definition not_found_reason (filename : string) : string :=
  Py.repr filename +:+ " not found by kpsewhich".

Definition absolute_filename (env : Env) (self : TeXFile) : M string :=
  try_except
    (let* proc := run env (Argv ["kpsewhich"; filename self]) None true in
     ret (Py.strip (stdout proc)))
    (fun e =>
       match e with
       | CalledProcessError _ _ =>
           Some (raise (FeatureNotPresentError self
                          (not_found_reason (filename self))))
       | _ => None
       end).

Definition _is_present (env : Env) (self : TeXFile)
  : M FeatureTestResult :=
  let* test := JoinFeature._is_present env self in
  if negb (__bool__ test) then ret test
  else FileFeature._is_present self (absolute_filename env self).

(** The inherited [is_present] of a TeX file. *)
Definition is_present (env : Env) (self : TeXFile)
  : M FeatureTestResult :=
  Feature.is_present self (_is_present env self).

End TeXFile.

Module LaTeXPackage.

Definition __classcall__ (package_name : string) : TeXFile :=
  TeXFile.__classcall__
    (Py.replace "-" "_" ("latex_package_" +:+ package_name))
    (package_name +:+ ".sty").

End LaTeXPackage.

Definition all_features : list Feature :=
  [ IsExecutable latex;
    IsExecutable pdflatex;
    IsExecutable xelatex;
    IsExecutable lualatex;
    IsTeXFile (LaTeXPackage.__classcall__ "tkz-graph") ].

(** [self._is_present()] and [self.is_present()], by the class of
    [self]. *)
Definition Feature__is_present (env : Env) (f : Feature)
  : M FeatureTestResult :=
  match f with
  | IsExecutable e => Executable._is_present env e
  | IsTeXFile t => TeXFile._is_present env t
  end.

Definition Feature_is_present (env : Env) (f : Feature)
  : M FeatureTestResult :=
  Feature.is_present f (Feature__is_present env f).

(** ** Vocabulary of the statements *)

Module Sample.

(** The scratch path the next functional check will use. *)
Definition scratch (env : Env) (w : World) : string :=
  mktemp env (tmp_count w) ".tex".

(** The line handed to the shell for the scratch file at [path]. *)
Definition command_line (self : Executable) (path : string) : string :=
  Py.join " " [name self; "-interaction=nonstopmode";
               snd (Py.os_path_split path)].

(** The file system the program is started on. *)
Definition prepared (env : Env) (w : World) : FS :=
  <[scratch env w := LaTeX.content]> (fs w).

(** The outcome of the process the functional check starts. *)
Definition launched (env : Env) (self : Executable) (w : World)
  : option (CompletedProcess * FS) :=
  spawn env (Shell (command_line self (scratch env w)))
    (Some (fst (Py.os_path_split (scratch env w)))) (prepared env w).

(** The event the functional check leaves in the log. *)
Definition event (env : Env) (self : Executable) (w : World) : Event :=
  ERun (Shell (command_line self (scratch env w)))
    (Some (fst (Py.os_path_split (scratch env w)))).

Definition positive (self : Feature) : FeatureTestResult :=
  {| feature := self; is_present := true; reason := None |}.

Definition negative (self : Feature) (why : string) : FeatureTestResult :=
  {| feature := self; is_present := false; reason := Some why |}.

End Sample.

Module Resolver.

(** The resolver invocation of a TeX file and its outcome. *)
Definition command (self : TeXFile) : Command :=
  Argv ["kpsewhich"; filename self].

Definition launched (env : Env) (self : TeXFile) (w : World)
  : option (CompletedProcess * FS) :=
  spawn env (command self) None (fs w).

Definition event (self : TeXFile) : Event := ERun (command self) None.

End Resolver.

(** The verdict of the search-path lookup for an executable. *)
Definition lookup_verdict (env : Env) (self : Executable)
  : FeatureTestResult :=
  match which env (executable self) with
  | Some _ => Sample.positive self
  | None => Sample.negative self (not_found_reason env (executable self))
  end.

(** The processes started, among the events of a log. *)
Definition processes (tr : list Event) : list Event :=
  List.filter (fun e => match e with ERun _ _ => true | EWhich _ => false end)
    tr.

(** The same surroundings with another search-path lookup. *)
Definition with_which (env : Env) (lookup : string -> option string) : Env :=
  {| which := lookup; spawn := spawn env; mktemp := mktemp env;
     not_found_reason := not_found_reason env |}.

(** ** Statements of the specification that the code does not follow *)

Module AsStated.

(** The functional check asks for presence first: on an absent
    executable it reports the presence query's negative result and
    starts no process. *)
Definition functional_requires_presence
    (env : Env) (self : Executable) (w : World) : Prop :=
  forall res,
    (Executable.is_present env self w).1 = Ok res ->
    is_present res = false ->
    (LaTeX.is_functional env self w).1 = Ok res
    /\ forall cmd cwd,
         ERun cmd cwd ∉ trace (LaTeX.is_functional env self w).2.

(** The scratch file is gone when the functional check returns. *)
Definition scratch_cleaned_up
    (env : Env) (self : Executable) (w : World) : Prop :=
  fs (LaTeX.is_functional env self w).2 !! Sample.scratch env w = None.

(** The path query returns the resolver's output with trailing
    whitespace stripped when the resolver exits with status zero. *)
Definition path_is_rstripped_output
    (env : Env) (self : TeXFile) (w : World) : Prop :=
  forall proc fs',
    Resolver.launched env self w = Some (proc, fs') ->
    returncode proc = 0 ->
    (TeXFile.absolute_filename env self w).1
    = Ok (Py.rstrip (stdout proc)).

(** A resolver that cannot be launched, or that dies from a signal, is
    reported by the path query as not found with a generic reason. *)
Definition abnormal_is_not_found
    (env : Env) (self : TeXFile) (w : World) (generic : string) : Prop :=
  match Resolver.launched env self w with
  | Some (proc, _) =>
      returncode proc < 0 ->
      (TeXFile.absolute_filename env self w).1
      = Raise (FeatureNotPresentError self generic)
  | None =>
      (TeXFile.absolute_filename env self w).1
      = Raise (FeatureNotPresentError self generic)
  end.

End AsStated.

(** ** Concrete environments *)

Module Scenario.

Definition completed (rc : Z) (out : string) : CompletedProcess :=
  {| returncode := rc; stdout := out; stderr := EmptyString |}.

Definition nth_tmp (n : nat) (ext : string) : string :=
  "/tmp/sage/tmp_" +:+ Py.format_int (Z.of_nat n) +:+ ext.

Definition lookup_failed (exe : string) : string :=
  "executable " +:+ Py.repr exe +:+ " not found on the search path".

Definition is_kpsewhich (cmd : Command) : option string :=
  match cmd with
  | Argv [prog; file] =>
      if String.eqb prog "kpsewhich" then Some file else None
  | _ => None
  end.

(** No TeX at all: nothing is on the search path, the shell answers 127
    to the unknown program, and [kpsewhich] cannot be launched. *)
Definition bare : Env :=
  {| which := fun _ => None;
     spawn := fun cmd _ files =>
       match cmd with
       | Shell _ => Some (completed 127 EmptyString, files)
       | Argv _ => None
       end;
     mktemp := nth_tmp;
     not_found_reason := lookup_failed |}.

(** A working installation: every program is found and exits with
    [rc]; [kpsewhich] prints the resolved path and a newline. *)
Definition installed (rc : Z) : Env :=
  {| which := fun exe => Some ("/usr/bin/" +:+ exe);
     spawn := fun cmd _ files =>
       match is_kpsewhich cmd with
       | Some file =>
           Some (completed 0 ("/texmf/" +:+ file +:+ Py.str1 Py.newline),
                 files)
       | None => Some (completed rc EmptyString, files)
       end;
     mktemp := nth_tmp;
     not_found_reason := lookup_failed |}.

(** The resolver is installed and works, [pdflatex] is not on the
    search path. *)
Definition resolver_only : Env :=
  {| which := fun _ => None;
     spawn := spawn (installed 0);
     mktemp := nth_tmp;
     not_found_reason := lookup_failed |}.

(** [pdflatex] is found, the resolver cannot be launched. *)
Definition no_resolver : Env :=
  {| which := which (installed 0);
     spawn := spawn bare;
     mktemp := nth_tmp;
     not_found_reason := lookup_failed |}.

(** The resolver prints the path after a blank. *)
Definition padded : Env :=
  {| which := which (installed 0);
     spawn := fun cmd _ files =>
       Some (completed 0 (" /texmf/article.cls" +:+ Py.str1 Py.newline),
             files);
     mktemp := nth_tmp;
     not_found_reason := lookup_failed |}.

(** The resolver is launched and ends with return code [rc]. *)
Definition failing_resolver (rc : Z) : Env :=
  {| which := which (installed 0);
     spawn := fun cmd _ files => Some (completed rc EmptyString, files);
     mktemp := nth_tmp;
     not_found_reason := lookup_failed |}.

(** The resolver is killed by signal 11. *)
Definition crashing : Env := failing_resolver (-11).

Definition start : World :=
  {| fs := ∅; tmp_count := 0; cache := ∅; trace := [] |}.

Definition article : TeXFile :=
  TeXFile.__init__ "latex_class_article" "article.cls".

End Scenario.

(** ** Repeated use *)

(** The state after [n] consecutive calls of [m]. *)
Fixpoint calls {A : Type} (n : nat) (m : M A) (w : World) : World :=
  match n with
  | O => w
  | S k => calls k m (m w).2
  end.


(** Surroundings in which no process can be launched at all. *)
Definition unlaunchable : Env :=
  {| which := which (Scenario.installed 0);
     spawn := fun _ _ _ => None;
     mktemp := Scenario.nth_tmp;
     not_found_reason := Scenario.lookup_failed |}.

(** ** Facts about the text primitives *)

Lemma append_inj_l (s x y : string) : s +:+ x = s +:+ y -> x = y.
Proof.
  induction s as [|c s IH]; simpl; [tauto|].
  intros H. injection H as H. auto.
Qed.

Lemma to_int_not_nil (z : Z) :
  Z.to_int z <> Decimal.Pos Decimal.Nil /\ Z.to_int z <> Decimal.Neg Decimal.Nil.
Proof.
  pose proof (DecimalZ.to_of (Z.to_int z)) as H.
  rewrite DecimalZ.of_to in H.
  split; intros E; rewrite E in H; discriminate H.
Qed.

Lemma format_int_inj (a b : Z) : Py.format_int a = Py.format_int b -> a = b.
Proof.
  unfold Py.format_int. intros H.
  apply DecimalZ.to_int_inj.
  destruct (to_int_not_nil a) as [Ha1 Ha2].
  destruct (to_int_not_nil b) as [Hb1 Hb2].
  pose proof (NilZero.isi _ Ha1 Ha2) as Ea.
  pose proof (NilZero.isi _ Hb1 Hb2) as Eb.
  rewrite H in Ea. congruence.
Qed.

Lemma contains_cons (needle : string) (c : ascii) (s : string) :
  Py.contains needle (String c s)
  = String.prefix needle (String c s) || Py.contains needle s.
Proof. reflexivity. Qed.

Lemma contains_without_head (c : ascii) (needle s : string) :
  Py.mem c s = false -> Py.contains (String c needle) s = false.
Proof.
  induction s as [|d s IH]; simpl; [reflexivity|].
  intros H. apply orb_false_elim in H as [Hcd Hs].
  destruct (ascii_dec c d) as [->|_].
  - rewrite Ascii.eqb_refl in Hcd. discriminate.
  - simpl. auto.
Qed.

Lemma contains_append_r (needle a b : string) :
  Py.contains needle b = true -> Py.contains needle (a +:+ b) = true.
Proof.
  intros H. induction a as [|c a IH]; simpl; [exact H|].
  fold (Py.contains needle (a +:+ b)). rewrite IH. apply orb_true_r.
Qed.

Lemma uint_digits_no_n (u : Decimal.uint) :
  Py.mem "n" (NilEmpty.string_of_uint u) = false.
Proof. induction u; simpl; auto. Qed.

Lemma format_int_no_n (z : Z) : Py.mem "n" (Py.format_int z) = false.
Proof.
  unfold Py.format_int.
  destruct (Z.to_int z) as [u|u]; simpl;
    destruct u; simpl; auto using uint_digits_no_n.
Qed.

Lemma append_cons (c : ascii) (s t : string) :
  String c s +:+ t = String c (s +:+ t).
Proof. reflexivity. Qed.

Lemma append_nil (t : string) : EmptyString +:+ t = t.
Proof. reflexivity. Qed.

Lemma failure_reason_eq (rc : Z) :
  LaTeX.failure_reason rc
  = "Running latex on a sample file returned non-zero exit status "
    +:+ Py.format_int rc.
Proof. reflexivity. Qed.

Lemma failure_reason_not_not_found (rc : Z) :
  Py.contains "not found" (LaTeX.failure_reason rc) = false.
Proof.
  rewrite failure_reason_eq.
  repeat rewrite append_cons. rewrite append_nil.
  repeat (rewrite contains_cons; cbn [String.prefix]; simpl orb).
  apply contains_without_head, format_int_no_n.
Qed.

(** ** The functional check *)

Lemma is_functional_unfold (env : Env) (self : Executable) (w : World) :
  LaTeX.is_functional env self w =
  let w1 := log (set_fs (set_tmp_count w (S (tmp_count w)))
                   (Sample.prepared env w)) (Sample.event env self w) in
  match Sample.launched env self w with
  | None => (Raise OSError, w1)
  | Some (proc, fs') =>
      (Ok (if returncode proc =? 0 then Sample.positive self
           else Sample.negative self (LaTeX.failure_reason (returncode proc))),
       set_fs w1 fs')
  end.
Proof.
  unfold LaTeX.is_functional, Sample.launched, Sample.event, Sample.prepared,
    Sample.command_line, Sample.scratch, bind, tmp_filename, write_text, run.
  simpl.
  destruct (Py.os_path_split (mktemp env (tmp_count w) ".tex")) as [base tail].
  simpl.
  destruct (spawn env _ _ _) as [[proc fs']|]; [|reflexivity].
  destruct (returncode proc =? 0); reflexivity.
Qed.

Lemma is_functional_out (env : Env) (self : Executable) (w : World) :
  (LaTeX.is_functional env self w).1 =
  match Sample.launched env self w with
  | None => Raise OSError
  | Some (proc, _) =>
      Ok (if returncode proc =? 0 then Sample.positive self
          else Sample.negative self (LaTeX.failure_reason (returncode proc)))
  end.
Proof.
  rewrite is_functional_unfold. simpl.
  destruct (Sample.launched env self w) as [[proc fs']|]; reflexivity.
Qed.

Lemma failure_reason_inj (rc rc' : Z) :
  LaTeX.failure_reason rc = LaTeX.failure_reason rc' -> rc = rc'.
Proof.
  rewrite !failure_reason_eq. intros H.
  apply append_inj_l in H. now apply format_int_inj.
Qed.

Lemma not_found_reason_says_so (file : string) :
  Py.contains "not found" (TeXFile.not_found_reason file) = true.
Proof. apply contains_append_r. reflexivity. Qed.

Lemma failure_reason_differs (rc : Z) (why : string) :
  Py.contains "not found" why = true -> LaTeX.failure_reason rc <> why.
Proof.
  intros Hwhy E. rewrite <- E, failure_reason_not_not_found in Hwhy.
  discriminate.
Qed.

(** C3.  [LaTeX.is_functional] returns a positive result (present, no
    reason) exactly when the process it starts exits with status zero;
    on any other exit status it returns a negative result whose reason is
    the fixed sentence followed by the decimal exit status, from which
    the status can be read back.  That reason never contains the words
    "not found": it differs from the not-found reason of a TeX file, and
    from the not-found reason of the executable base class as soon as
    that one says "not found". *)
Theorem is_functional_exit_status
    (env : Env) (self : Executable) (w : World) :
  let out := (LaTeX.is_functional env self w).1 in
  ((exists res, out = Ok res /\ is_present res = true /\ reason res = None)
   <-> exists proc fs',
         Sample.launched env self w = Some (proc, fs')
         /\ returncode proc = 0)
  /\ (forall proc fs',
        Sample.launched env self w = Some (proc, fs') ->
        (returncode proc = 0 -> out = Ok (Sample.positive self))
        /\ (returncode proc <> 0 ->
            out = Ok (Sample.negative self
                        (LaTeX.failure_reason (returncode proc)))))
  /\ (forall rc,
        LaTeX.failure_reason rc
        = "Running latex on a sample file returned non-zero exit status "
          +:+ Py.format_int rc)
  /\ (forall rc rc',
        LaTeX.failure_reason rc = LaTeX.failure_reason rc' -> rc = rc')
  /\ (forall rc, Py.contains "not found" (LaTeX.failure_reason rc) = false)
  /\ (forall rc file,
        LaTeX.failure_reason rc <> TeXFile.not_found_reason file)
  /\ (forall rc,
        Py.contains "not found" (not_found_reason env (executable self))
        = true ->
        LaTeX.failure_reason rc <> not_found_reason env (executable self)).
Proof.
  cbv zeta. rewrite is_functional_out.
  repeat apply conj.
  - intros (res & Hout & Hp & Hr).
    destruct (Sample.launched env self w) as [[proc fs']|]; [|discriminate].
    exists proc, fs'. split; [reflexivity|].
    destruct (Z.eqb_spec (returncode proc) 0) as [E|NE]; [exact E|].
    injection Hout as <-. discriminate Hp.
  - intros (proc & fs' & -> & Hrc). rewrite Hrc.
    exists (Sample.positive self). auto.
  - intros proc fs' ->. split; intros Hrc.
    + now rewrite Hrc.
    + now destruct (Z.eqb_spec (returncode proc) 0).
  - exact failure_reason_eq.
  - exact failure_reason_inj.
  - exact failure_reason_not_not_found.
  - intros rc file. apply failure_reason_differs, not_found_reason_says_so.
  - intros rc H. now apply failure_reason_differs.
Qed.

Lemma is_functional_exit_status_witness :
  (LaTeX.is_functional (Scenario.installed 1) latex Scenario.start).1
  = Ok (Sample.negative latex (LaTeX.failure_reason 1))
  /\ LaTeX.failure_reason 1
     <> not_found_reason (Scenario.installed 1) (executable latex).
Proof.
  destruct (is_functional_exit_status (Scenario.installed 1) latex
              Scenario.start) as (_ & Hrun & _ & _ & _ & _ & Hnf).
  split.
  - apply (Hrun (Scenario.completed 1 EmptyString)
             (Sample.prepared (Scenario.installed 1) Scenario.start));
      [reflexivity | discriminate].
  - apply Hnf. reflexivity.
Defined.

(** C4, as the code has it.  [LaTeX.is_functional] does not ask for
    presence.  In every state it takes the next temporary name, writes
    the sample document there, and starts the line made of the feature's
    name, the flag and the file name once through the shell, on the file
    system that holds the sample; that is its only external invocation,
    and the cache is left as it is.  Its outcome is read off that run
    alone: a positive result for exit status zero, the negative result
    made of the fixed sentence and the exit status for any other status,
    the operating-system error when nothing could be launched.  It is the
    same under any other search-path lookup and any other cache.  So on an
    absent executable it reports the exit status of the failed run, in
    words that never say "not found", and not the not-found outcome. *)
Theorem is_functional_always_runs
    (env : Env) (self : Executable) (w : World) :
  let path := mktemp env (tmp_count w) ".tex" in
  let started : FS := <[path := LaTeX.content]> (fs w) in
  let line :=
    name self +:+ " -interaction=nonstopmode " +:+ (Py.os_path_split path).2 in
  let cwd := (Py.os_path_split path).1 in
  let w1 :=
    {| fs := started; tmp_count := S (tmp_count w); cache := cache w;
       trace := trace w ++ [ERun (Shell line) (Some cwd)] |} in
  LaTeX.is_functional env self w
  = match spawn env (Shell line) (Some cwd) started with
    | None => (Raise OSError, w1)
    | Some (proc, fs') =>
        (Ok (if returncode proc =? 0
             then {| feature := self; is_present := true; reason := None |}
             else {| feature := self; is_present := false;
                     reason := Some (LaTeX.failure_reason
                                       (returncode proc)) |}),
         set_fs w1 fs')
    end
  /\ started !! path = Some LaTeX.content
  /\ trace (LaTeX.is_functional env self w).2
     = trace w ++ [Sample.event env self w]
  /\ cache (LaTeX.is_functional env self w).2 = cache w
  /\ (forall c,
        (LaTeX.is_functional env self (set_cache w c)).1
        = (LaTeX.is_functional env self w).1)
  /\ (forall lookup,
        LaTeX.is_functional (with_which env lookup) self w
        = LaTeX.is_functional env self w)
  /\ (forall proc fs',
        spawn env (Shell line) (Some cwd) started = Some (proc, fs') ->
        returncode proc <> 0 ->
        (LaTeX.is_functional env self w).1
        = Ok {| feature := self; is_present := false;
                reason := Some (LaTeX.failure_reason (returncode proc)) |}
        /\ Py.contains "not found" (LaTeX.failure_reason (returncode proc))
           = false
        /\ (Py.contains "not found" (not_found_reason env (executable self))
            = true ->
            (LaTeX.is_functional env self w).1
            <> Ok {| feature := self; is_present := false;
                     reason := Some (not_found_reason env
                                       (executable self)) |})).
Proof.
  cbv zeta.
  assert (Hfull :
    LaTeX.is_functional env self w
    = match spawn env
              (Shell (name self +:+ " -interaction=nonstopmode "
                      +:+ (Py.os_path_split
                             (mktemp env (tmp_count w) ".tex")).2))
              (Some (Py.os_path_split (mktemp env (tmp_count w) ".tex")).1)
              (<[mktemp env (tmp_count w) ".tex" := LaTeX.content]> (fs w))
      with
      | None =>
          (Raise OSError,
           {| fs := <[mktemp env (tmp_count w) ".tex" := LaTeX.content]> (fs w);
              tmp_count := S (tmp_count w); cache := cache w;
              trace := trace w ++ [Sample.event env self w] |})
      | Some (proc, fs') =>
          (Ok (if returncode proc =? 0 then Sample.positive self
               else Sample.negative self
                      (LaTeX.failure_reason (returncode proc))),
           {| fs := fs'; tmp_count := S (tmp_count w); cache := cache w;
              trace := trace w ++ [Sample.event env self w] |})
      end).
  { rewrite is_functional_unfold. reflexivity. }
  repeat apply conj.
  - exact Hfull.
  - apply lookup_insert_eq.
  - rewrite is_functional_unfold. cbv zeta.
    destruct (Sample.launched env self w) as [[proc fs']|]; reflexivity.
  - rewrite is_functional_unfold. cbv zeta.
    destruct (Sample.launched env self w) as [[proc fs']|]; reflexivity.
  - intros c. rewrite !is_functional_out. reflexivity.
  - intros lookup. reflexivity.
  - intros proc fs' H Hrc. repeat apply conj.
    + rewrite Hfull, H. simpl.
      destruct (Z.eqb_spec (returncode proc) 0); [contradiction|reflexivity].
    + apply failure_reason_not_not_found.
    + intros Hnf E. rewrite Hfull, H in E. simpl in E.
      destruct (Z.eqb_spec (returncode proc) 0); [contradiction|].
      injection E as E.
      now apply (failure_reason_differs (returncode proc) _ Hnf).
Qed.

Lemma is_functional_always_runs_witness :
  which Scenario.bare (executable latex) = None
  /\ (LaTeX.is_functional Scenario.bare latex Scenario.start).1
     = Ok (Sample.negative latex
             "Running latex on a sample file returned non-zero exit status 127")
  /\ (LaTeX.is_functional Scenario.bare latex Scenario.start).1
     <> Ok (Sample.negative latex
              (not_found_reason Scenario.bare (executable latex))).
Proof.
  destruct (is_functional_always_runs Scenario.bare latex Scenario.start)
    as (_ & _ & _ & _ & _ & _ & H).
  destruct (H (Scenario.completed 127 EmptyString)
              (<["/tmp/sage/tmp_0.tex" := LaTeX.content]> ∅))
    as (Hres & _ & Hnot); [reflexivity | discriminate |].
  split; [reflexivity|]. split.
  - rewrite Hres. reflexivity.
  - apply Hnot. reflexivity.
Defined.

(** C4, counterexample.  With nothing on the search path the presence
    query of [latex] is negative, yet the functional check starts the
    program and reports its exit status 127. *)
Lemma functional_check_runs_absent_program :
  ~ AsStated.functional_requires_presence Scenario.bare latex Scenario.start.
Proof.
  intros H.
  destruct (H (Sample.negative latex (Scenario.lookup_failed "latex")))
    as [E _]; [reflexivity | reflexivity |].
  vm_compute in E. discriminate E.
Qed.

(** C5, as the code has it.  [LaTeX.is_functional] writes the sample
    document to the scratch path and releases only the file handle; it
    never removes the file.  When the call returns, on the success and on
    the failure path alike, the file system is the one the program left,
    the program having been started with the scratch file in place: the
    file is still there unless the program itself removed it. *)
Theorem scratch_file_is_kept (env : Env) (self : Executable) (w : World) :
  Sample.prepared env w !! Sample.scratch env w = Some LaTeX.content
  /\ match Sample.launched env self w with
     | Some (_, fs') => fs (LaTeX.is_functional env self w).2 = fs'
     | None => fs (LaTeX.is_functional env self w).2 = Sample.prepared env w
     end
  /\ (forall proc fs',
        Sample.launched env self w = Some (proc, fs') ->
        fs' !! Sample.scratch env w = Some LaTeX.content ->
        fs (LaTeX.is_functional env self w).2 !! Sample.scratch env w
        = Some LaTeX.content).
Proof.
  rewrite is_functional_unfold. cbv zeta.
  split; [apply lookup_insert_eq|].
  destruct (Sample.launched env self w) as [[proc fs']|]; simpl.
  - split; [reflexivity|]. intros ? ? [= _ <-]. auto.
  - split; [reflexivity|]. discriminate.
Qed.

Lemma scratch_file_is_kept_witness :
  fs (LaTeX.is_functional (Scenario.installed 0) latex Scenario.start).2
  !! "/tmp/sage/tmp_0.tex" = Some LaTeX.content.
Proof.
  destruct (scratch_file_is_kept (Scenario.installed 0) latex Scenario.start)
    as (_ & _ & H).
  apply (H (Scenario.completed 0 EmptyString)
           (Sample.prepared (Scenario.installed 0) Scenario.start));
    reflexivity.
Defined.

(** C5, counterexample.  After a functional check that succeeded (exit
    status 0) and after one that failed (exit status 1) the scratch file
    is still in the file system. *)
Lemma scratch_file_survives_the_check :
  ~ AsStated.scratch_cleaned_up (Scenario.installed 0) latex Scenario.start
  /\ ~ AsStated.scratch_cleaned_up (Scenario.installed 1) latex Scenario.start.
Proof.
  unfold AsStated.scratch_cleaned_up.
  split; intros H; vm_compute in H; discriminate H.
Qed.

(** ** The path query of a TeX file *)

Lemma absolute_filename_unfold (env : Env) (self : TeXFile) (w : World) :
  TeXFile.absolute_filename env self w =
  let w1 := log w (Resolver.event self) in
  match Resolver.launched env self w with
  | None => (Raise OSError, w1)
  | Some (proc, fs') =>
      (if returncode proc =? 0 then Ok (Py.strip (stdout proc))
       else Raise (FeatureNotPresentError self
                     (TeXFile.not_found_reason (filename self))),
       set_fs w1 fs')
  end.
Proof.
  unfold TeXFile.absolute_filename, try_except, bind, run,
    Resolver.launched, Resolver.event, Resolver.command.
  simpl.
  destruct (spawn env _ _ _) as [[proc fs']|]; [|reflexivity].
  destruct (returncode proc =? 0); reflexivity.
Qed.

Lemma absolute_filename_out (env : Env) (self : TeXFile) (w : World) :
  (TeXFile.absolute_filename env self w).1 =
  match Resolver.launched env self w with
  | None => Raise OSError
  | Some (proc, _) =>
      if returncode proc =? 0 then Ok (Py.strip (stdout proc))
      else Raise (FeatureNotPresentError self
                    (TeXFile.not_found_reason (filename self)))
  end.
Proof.
  rewrite absolute_filename_unfold. cbv zeta.
  destruct (Resolver.launched env self w) as [[proc fs']|]; reflexivity.
Qed.

(** ** Stripping and quoting *)

Lemma lstrip_by_split (p : ascii -> bool) (s : string) :
  exists l, s = l +:+ Py.lstrip_by p s /\ Py.all_chars p l = true.
Proof.
  induction s as [|c s (l & E & Hl)]; simpl.
  - exists EmptyString. auto.
  - destruct (p c) eqn:Hc.
    + exists (String c l). rewrite append_cons, <- E. simpl.
      rewrite Hc, Hl. auto.
    + exists EmptyString. auto.
Qed.

Lemma rstrip_by_split (p : ascii -> bool) (s : string) :
  exists r, s = Py.rstrip_by p s +:+ r /\ Py.all_chars p r = true.
Proof.
  induction s as [|c s (r & E & Hr)]; simpl.
  - exists EmptyString. auto.
  - destruct (p c) eqn:Hc; simpl.
    + destruct (Py.rstrip_by p s) eqn:Hs; simpl.
      * exists (String c r). rewrite append_nil in *. subst r. simpl.
        rewrite Hc, Hr. auto.
      * exists r. rewrite append_cons, <- E. auto.
    + exists r. rewrite append_cons, <- E. auto.
Qed.

Lemma rstrip_by_idem (p : ascii -> bool) (s : string) :
  Py.rstrip_by p (Py.rstrip_by p s) = Py.rstrip_by p s.
Proof.
  induction s as [|c s IH]; simpl; [reflexivity|].
  destruct (p c && Py.is_empty (Py.rstrip_by p s)) eqn:E; simpl.
  - reflexivity.
  - rewrite IH, E. reflexivity.
Qed.

Lemma lstrip_by_idem (p : ascii -> bool) (s : string) :
  Py.lstrip_by p (Py.lstrip_by p s) = Py.lstrip_by p s.
Proof.
  induction s as [|c s IH]; simpl; [reflexivity|].
  destruct (p c) eqn:E; simpl; [exact IH|]. now rewrite E.
Qed.

Lemma lstrip_by_length (p : ascii -> bool) (s : string) :
  (String.length (Py.lstrip_by p s) <= String.length s)%nat.
Proof.
  induction s as [|c s IH]; simpl; [lia|].
  destruct (p c); simpl; lia.
Qed.

Lemma lstrip_by_rstrip_by (p : ascii -> bool) (s : string) :
  Py.lstrip_by p s = s ->
  Py.lstrip_by p (Py.rstrip_by p s) = Py.rstrip_by p s.
Proof.
  destruct s as [|c s]; simpl; [reflexivity|].
  destruct (p c) eqn:E; simpl.
  - intros H. exfalso.
    pose proof (lstrip_by_length p s) as Hlen.
    rewrite H in Hlen. simpl in Hlen. lia.
  - intros _. now rewrite E.
Qed.

Lemma strip_spec (s : string) :
  (exists l r, s = l +:+ Py.strip s +:+ r
               /\ Py.all_chars Py.isspace l = true
               /\ Py.all_chars Py.isspace r = true)
  /\ Py.lstrip (Py.strip s) = Py.strip s
  /\ Py.rstrip (Py.strip s) = Py.strip s.
Proof.
  unfold Py.strip, Py.lstrip, Py.rstrip. repeat apply conj.
  - destruct (lstrip_by_split Py.isspace s) as (l & El & Hl).
    destruct (rstrip_by_split Py.isspace (Py.lstrip_by Py.isspace s))
      as (r & Er & Hr).
    exists l, r. rewrite <- Er. auto.
  - apply lstrip_by_rstrip_by, lstrip_by_idem.
  - apply rstrip_by_idem.
Qed.

Lemma repr_char_plain (c : ascii) :
  Py.plain c = true -> Py.repr_char Py.squote c = Py.str1 c.
Proof.
  destruct c as [[] [] [] [] [] [] [] []]; intros H;
    solve [reflexivity | discriminate H].
Qed.

Lemma plain_not_squote (s : string) :
  Py.all_chars Py.plain s = true -> Py.mem Py.squote s = false.
Proof.
  induction s as [|c s IH]; [reflexivity|].
  change (Py.all_chars Py.plain (String c s))
    with (Py.plain c && Py.all_chars Py.plain s).
  change (Py.mem Py.squote (String c s))
    with (Ascii.eqb Py.squote c || Py.mem Py.squote s).
  intros H. apply andb_prop in H as [Hc Hs]. rewrite (IH Hs).
  rewrite orb_false_r, Ascii.eqb_sym.
  unfold Py.plain in Hc.
  destruct (Ascii.eqb c Py.squote); [|reflexivity].
  rewrite andb_false_r in Hc. discriminate.
Qed.

Lemma repr_body_plain (s : string) :
  Py.all_chars Py.plain s = true -> Py.repr_body Py.squote s = s.
Proof.
  induction s as [|c s IH]; simpl; [reflexivity|].
  intros H. apply andb_prop in H as [Hc Hs].
  rewrite (repr_char_plain c Hc), (IH Hs). reflexivity.
Qed.

Lemma repr_plain (s : string) :
  Py.all_chars Py.plain s = true ->
  Py.repr s = "'" +:+ s +:+ "'".
Proof.
  intros H. unfold Py.repr.
  rewrite (plain_not_squote s H). simpl.
  rewrite (repr_body_plain s H). reflexivity.
Qed.

(** C2, as the code has it.  When the resolver exits with status zero,
    [absolute_filename] returns its standard output with the leading and
    the trailing whitespace stripped; it raises [FeatureNotPresentError]
    exactly when the resolver exits with a non-zero status, and the error
    then carries the feature and the reason made of the quoted file name
    followed by " not found by kpsewhich". *)
Theorem absolute_filename_outcome (env : Env) (self : TeXFile) (w : World) :
  let out := (TeXFile.absolute_filename env self w).1 in
  (forall proc fs',
     Resolver.launched env self w = Some (proc, fs') ->
     returncode proc = 0 ->
     out = Ok (Py.strip (stdout proc))
     /\ (Py.lstrip (stdout proc) = stdout proc ->
         out = Ok (Py.rstrip (stdout proc))))
  /\ (forall s,
        (exists l r, s = l +:+ Py.strip s +:+ r
                     /\ Py.all_chars Py.isspace l = true
                     /\ Py.all_chars Py.isspace r = true)
        /\ Py.lstrip (Py.strip s) = Py.strip s
        /\ Py.rstrip (Py.strip s) = Py.strip s)
  /\ ((exists f why, out = Raise (FeatureNotPresentError f why))
      <-> exists proc fs',
            Resolver.launched env self w = Some (proc, fs')
            /\ returncode proc <> 0)
  /\ (forall f why,
        out = Raise (FeatureNotPresentError f why) ->
        f = IsTeXFile self
        /\ why = Py.repr (filename self) +:+ " not found by kpsewhich")
  /\ (Py.all_chars Py.plain (filename self) = true ->
      Py.repr (filename self) = "'" +:+ filename self +:+ "'").
Proof.
  cbv zeta. rewrite absolute_filename_out.
  repeat apply conj.
  - intros proc fs' -> Hrc. rewrite Hrc. simpl. split; [reflexivity|].
    intros Hl. unfold Py.strip. now rewrite Hl.
  - exact strip_spec.
  - intros (f & why & H).
    destruct (Resolver.launched env self w) as [[proc fs']|]; [|discriminate].
    exists proc, fs'. split; [reflexivity|].
    destruct (Z.eqb_spec (returncode proc) 0); [discriminate|assumption].
  - intros (proc & fs' & -> & Hrc).
    destruct (Z.eqb_spec (returncode proc) 0); [contradiction|eauto].
  - intros f why H.
    destruct (Resolver.launched env self w) as [[proc fs']|]; [|discriminate].
    destruct (returncode proc =? 0); [discriminate|].
    injection H as <- <-. auto.
  - apply repr_plain.
Qed.

Lemma absolute_filename_outcome_witness :
  (TeXFile.absolute_filename (Scenario.installed 0) Scenario.article
     Scenario.start).1 = Ok "/texmf/article.cls"
  /\ Py.repr (filename Scenario.article) = "'article.cls'".
Proof.
  destruct (absolute_filename_outcome (Scenario.installed 0) Scenario.article
              Scenario.start) as (Hok & _ & _ & _ & Hrepr).
  split.
  - apply (Hok (Scenario.completed 0
                  ("/texmf/article.cls" +:+ Py.str1 Py.newline)) ∅);
      reflexivity.
  - apply Hrepr. reflexivity.
Defined.

(** C2, counterexample.  The resolver exits with status zero after
    printing a blank, the path and a newline: the path query returns the
    path without the leading blank, which is not the output with only its
    trailing whitespace stripped. *)
Lemma leading_whitespace_is_stripped_too :
  ~ AsStated.path_is_rstripped_output Scenario.padded Scenario.article
      Scenario.start.
Proof.
  intros H.
  specialize (H (Scenario.completed 0
                   (" /texmf/article.cls" +:+ Py.str1 Py.newline)) ∅
                eq_refl eq_refl).
  vm_compute in H. discriminate H.
Qed.

(** C6, as the code has it.  A resolver that was launched and ended with
    a non-zero return code, the negative code of a death by signal
    included, makes [absolute_filename] raise [FeatureNotPresentError]
    with the same reason as any other failed lookup, the quoted file name
    followed by " not found by kpsewhich"; a resolver that cannot be
    launched makes it raise the operating-system error, which no handler
    of the path query catches. *)
Theorem abnormal_resolver_outcome (env : Env) (self : TeXFile) (w : World) :
  (forall proc fs',
     Resolver.launched env self w = Some (proc, fs') ->
     returncode proc <> 0 ->
     TeXFile.absolute_filename env self w
     = (Raise (FeatureNotPresentError self
                 (Py.repr (filename self) +:+ " not found by kpsewhich")),
        set_fs (log w (Resolver.event self)) fs'))
  /\ (Resolver.launched env self w = None ->
      TeXFile.absolute_filename env self w
      = (Raise OSError, log w (Resolver.event self))).
Proof.
  rewrite absolute_filename_unfold. cbv zeta. split.
  - intros proc fs' -> Hrc.
    destruct (Z.eqb_spec (returncode proc) 0); [contradiction|reflexivity].
  - intros ->. reflexivity.
Qed.

Lemma abnormal_resolver_outcome_witness :
  (TeXFile.absolute_filename Scenario.crashing Scenario.article
     Scenario.start).1
  = Raise (FeatureNotPresentError Scenario.article
             "'article.cls' not found by kpsewhich")
  /\ (TeXFile.absolute_filename Scenario.no_resolver Scenario.article
        Scenario.start).1 = Raise OSError.
Proof.
  split.
  - destruct (abnormal_resolver_outcome Scenario.crashing Scenario.article
                Scenario.start) as [H _].
    rewrite (H (Scenario.completed (-11) EmptyString) ∅ eq_refl);
      [reflexivity | discriminate].
  - destruct (abnormal_resolver_outcome Scenario.no_resolver Scenario.article
                Scenario.start) as [_ H].
    rewrite (H eq_refl). reflexivity.
Defined.

(** C6, counterexample.  When the resolver cannot be launched the path
    query raises the operating-system error: whatever the generic reason,
    the outcome is not the not-found error. *)
Lemma launch_failure_propagates :
  ~ exists generic,
      AsStated.abnormal_is_not_found Scenario.no_resolver Scenario.article
        Scenario.start generic.
Proof.
  intros [generic H]. vm_compute in H. discriminate H.
Qed.

(** ** Presence queries *)




Lemma executable_check (env : Env) (self : Executable) (w : World) :
  Executable._is_present env self w
  = (Ok (lookup_verdict env self), log w (EWhich (executable self))).
Proof.
  unfold Executable._is_present, FileFeature._is_present, try_except, bind,
    Executable.absolute_filename, shutil_which, lookup_verdict.
  simpl. destruct (which env (executable self)); reflexivity.
Qed.

Lemma executable_is_present (env : Env) (self : Executable) (w : World) :
  Executable.is_present env self w =
  match cache w !! Executable_name self with
  | Some res => (Ok res, w)
  | None =>
      (Ok (lookup_verdict env self),
       set_cache (log w (EWhich (executable self)))
         (<[Executable_name self := lookup_verdict env self]> (cache w)))
  end.
Proof.
  unfold Executable.is_present, Feature.is_present.
  rewrite executable_check. reflexivity.
Qed.

Lemma join_single (env : Env) (self : TeXFile) (w : World)
    (test : FeatureTestResult) (w1 : World) :
  _features self = [pdflatex] ->
  Executable.is_present env pdflatex w = (Ok test, w1) ->
  JoinFeature._is_present env self w
  = (Ok (if is_present test then Sample.positive self else test), w1).
Proof.
  unfold JoinFeature._is_present. intros -> H. simpl.
  unfold bind. rewrite H. unfold __bool__.
  destruct (is_present test); reflexivity.
Qed.

Lemma file_check (env : Env) (self : TeXFile) (w : World) :
  FileFeature._is_present self (TeXFile.absolute_filename env self) w =
  let w1 := log w (Resolver.event self) in
  match Resolver.launched env self w with
  | None => (Raise OSError, w1)
  | Some (proc, fs') =>
      (Ok (if returncode proc =? 0 then Sample.positive self
           else Sample.negative self
                  (TeXFile.not_found_reason (filename self))),
       set_fs w1 fs')
  end.
Proof.
  unfold FileFeature._is_present, try_except, bind.
  rewrite absolute_filename_unfold. cbv zeta.
  destruct (Resolver.launched env self w) as [[proc fs']|]; [|reflexivity].
  destruct (returncode proc =? 0); reflexivity.
Qed.

Lemma file_check_trace (env : Env) (self : TeXFile) (w : World) :
  trace (FileFeature._is_present self (TeXFile.absolute_filename env self) w).2
  = trace w ++ [Resolver.event self].
Proof.
  rewrite file_check. cbv zeta.
  destruct (Resolver.launched env self w) as [[proc fs']|]; reflexivity.
Qed.


(** C1.  The presence check of a TeX file asks its [pdflatex] member
    first, which at most looks the program up on the search path.  When
    the member reports absent, [_is_present] returns the member's result
    itself, reason included, in the state the member left: no process,
    hence no resolver, has been started.  When the member reports
    present, the resolver is started next, after the member's lookup. *)
Theorem texfile_presence_is_gated
    (env : Env) (nm file : string) (w : World) :
  let self := TeXFile.__init__ nm file in
  exists test w1,
    Executable.is_present env pdflatex w = (Ok test, w1)
    /\ (trace w1 = trace w \/ trace w1 = trace w ++ [EWhich "pdflatex"])
    /\ (is_present test = false ->
        TeXFile._is_present env self w = (Ok test, w1)
        /\ processes (trace w1) = processes (trace w))
    /\ (is_present test = true ->
        trace (TeXFile._is_present env self w).2
        = trace w1 ++ [Resolver.event self]).
Proof.
  cbv zeta.
  destruct (Executable.is_present env pdflatex w) as [out w1] eqn:E.
  assert (Ht : (exists test, out = Ok test)
               /\ (trace w1 = trace w
                   \/ trace w1 = trace w ++ [EWhich "pdflatex"])).
  { rewrite executable_is_present in E.
    destruct (cache w !! Executable_name pdflatex);
      injection E as <- <-; split; eauto. }
  destruct Ht as [[test ->] Htr].
  exists test, w1. split; [reflexivity|]. split; [exact Htr|].
  pose proof (join_single env (TeXFile.__init__ nm file) w test w1
                eq_refl E) as J.
  unfold TeXFile._is_present, bind, __bool__. rewrite J.
  split; intros Hp; rewrite !Hp; simpl.
  - split; [reflexivity|].
    destruct Htr as [-> | ->]; [reflexivity|].
    unfold processes. rewrite List.filter_app. simpl. apply app_nil_r.
  - apply file_check_trace.
Qed.

Lemma texfile_presence_is_gated_witness :
  TeXFile._is_present Scenario.resolver_only Scenario.article Scenario.start
  = Executable.is_present Scenario.resolver_only pdflatex Scenario.start
  /\ trace (TeXFile._is_present (Scenario.installed 0) Scenario.article
              Scenario.start).2
     = [EWhich "pdflatex"; ERun (Argv ["kpsewhich"; "article.cls"]) None].
Proof.
  split.
  - destruct (texfile_presence_is_gated Scenario.resolver_only
                "latex_class_article" "article.cls" Scenario.start)
      as (test & w1 & E & _ & Habsent & _).
    rewrite E. apply Habsent.
    rewrite executable_is_present in E. injection E as <- _. reflexivity.
  - destruct (texfile_presence_is_gated (Scenario.installed 0)
                "latex_class_article" "article.cls" Scenario.start)
      as (test & w1 & E & _ & _ & Hpresent).
    fold Scenario.article in Hpresent. rewrite Hpresent.
    + rewrite executable_is_present in E. injection E as _ <-. reflexivity.
    + rewrite executable_is_present in E. injection E as <- _. reflexivity.
Defined.






(** ** Construction and enumeration *)

Lemma replace_append (old new : ascii) (s t : string) :
  Py.replace old new (s +:+ t)
  = Py.replace old new s +:+ Py.replace old new t.
Proof.
  induction s as [|c s IH]; [reflexivity|].
  rewrite append_cons. simpl. rewrite IH. reflexivity.
Qed.

Lemma replace_removes (old new : ascii) (s : string) :
  old <> new -> Py.mem old (Py.replace old new s) = false.
Proof.
  intros Hne. induction s as [|c s IH]; simpl; [reflexivity|].
  rewrite IH, orb_false_r.
  destruct (Ascii.eqb_spec c old) as [->|Hc].
  - now apply Ascii.eqb_neq.
  - apply Ascii.eqb_neq. congruence.
Qed.

(** C7.  The package probe of an identifier is the TeX-file probe whose
    name is "latex_package_" followed by the identifier with every "-"
    replaced by "_" (no "-" is left in the name), whose file is the
    identifier followed by ".sty", and whose only member is [pdflatex].
    Two constructions from the same identifier give equal probes, with
    the same name and the same answers in every state. *)
Theorem package_probe_is_determined (package_name : string) :
  let probe := LaTeXPackage.__classcall__ package_name in
  TeXFile_name probe
  = "latex_package_" +:+ Py.replace "-" "_" package_name
  /\ Py.mem "-" (TeXFile_name probe) = false
  /\ filename probe = package_name +:+ ".sty"
  /\ _features probe = [pdflatex]
  /\ (forall other,
        other = package_name ->
        LaTeXPackage.__classcall__ other = probe
        /\ name (LaTeXPackage.__classcall__ other) = name probe
        /\ forall env w,
             Feature_is_present env (LaTeXPackage.__classcall__ other) w
             = Feature_is_present env probe w).
Proof.
  cbv zeta. repeat apply conj.
  - unfold LaTeXPackage.__classcall__. simpl.
    rewrite replace_append. reflexivity.
  - apply replace_removes. discriminate.
  - reflexivity.
  - reflexivity.
  - intros other ->. auto.
Qed.

Lemma package_probe_is_determined_witness :
  LaTeXPackage.__classcall__ "graphics"
  = TeXFile.__init__ "latex_package_graphics" "graphics.sty"
  /\ name (LaTeXPackage.__classcall__ "tkz-graph") = "latex_package_tkz_graph".
Proof.
  destruct (package_probe_is_determined "graphics")
    as (_ & _ & _ & _ & H).
  destruct (H "graphics" eq_refl) as (E & _ & _).
  split; [etransitivity; [exact E | reflexivity] | reflexivity].
Defined.

(** C8.  [all_features] lists five probes in this order: the executables
    [latex], [pdflatex], [xelatex] and [lualatex], each looked up under
    its own name, then the package probe of "tkz-graph". *)
Theorem all_features_enumeration :
  all_features
  = [ IsExecutable (LaTeX.__init__ "latex");
      IsExecutable (LaTeX.__init__ "pdflatex");
      IsExecutable (LaTeX.__init__ "xelatex");
      IsExecutable (LaTeX.__init__ "lualatex");
      IsTeXFile (LaTeXPackage.__classcall__ "tkz-graph") ]
  /\ length all_features = 5%nat
  /\ name <$> all_features
     = ["latex"; "pdflatex"; "xelatex"; "lualatex"; "latex_package_tkz_graph"]
  /\ (forall e, IsExecutable e ∈ all_features ->
        executable e = Executable_name e
        /\ spkg e = "texlive"
        /\ url e = "https://www.latex-project.org/")
  /\ all_features !! 4%nat
     = Some (IsTeXFile
               (TeXFile.__init__ "latex_package_tkz_graph" "tkz-graph.sty")).
Proof.
  repeat apply conj; try reflexivity.
  intros e He. unfold all_features in He.
  repeat (apply elem_of_cons in He as [He|He];
          [first [injection He as ->; now vm_compute | discriminate He]|]).
  now apply elem_of_nil in He.
Qed.

(** ** The examples of the docstrings *)

Example package_members :
  _features (LaTeXPackage.__classcall__ "tkz-graph") = [pdflatex].
Proof. reflexivity. Qed.

Example existing_file_is_present :
  (TeXFile.is_present (Scenario.installed 0) (TeXFile.__init__ "x" "x.tex")
     Scenario.start).1
  = Ok (Sample.positive (TeXFile.__init__ "x" "x.tex")).
Proof. reflexivity. Qed.

Example missing_file_is_absent :
  let f := TeXFile.__init__ "nonexisting" "xxxxxx-nonexisting-file.tex" in
  (TeXFile.is_present (Scenario.failing_resolver 1) f Scenario.start).1
  = Ok (Sample.negative f
          "'xxxxxx-nonexisting-file.tex' not found by kpsewhich").
Proof. reflexivity. Qed.

Example working_latex_is_functional :
  (LaTeX.is_functional (Scenario.installed 0) latex Scenario.start).1
  = Ok (Sample.positive latex).
Proof. reflexivity. Qed.

Example absent_latex_exit_status :
  LaTeX.is_functional Scenario.bare latex Scenario.start
  = (Ok (Sample.negative latex
           "Running latex on a sample file returned non-zero exit status 127"),
     {| fs := {[ "/tmp/sage/tmp_0.tex" := LaTeX.content ]};
        tmp_count := 1;
        cache := ∅;
        trace := [ERun (Shell "latex -interaction=nonstopmode tmp_0.tex")
                    (Some "/tmp/sage")] |}).
Proof. reflexivity. Qed.

Example strip_both_ends :
  Py.strip (" /texmf/article.cls" +:+ Py.str1 Py.newline)
  = "/texmf/article.cls"
  /\ Py.rstrip (" /texmf/article.cls" +:+ Py.str1 Py.newline)
     = " /texmf/article.cls".
Proof. split; reflexivity. Qed.

Example repr_quotes :
  Py.repr "tkz-graph.sty" = "'tkz-graph.sty'"
  /\ Py.repr "a'b" = String Py.dquote ("a'b" +:+ Py.str1 Py.dquote)
  /\ Py.repr ("a" +:+ Py.str1 Py.newline) = "'a\n'".
Proof. repeat split; reflexivity. Qed.

Example format_int_signs :
  (Py.format_int 0, Py.format_int 127, Py.format_int (-11))
  = ("0", "127", "-11").
Proof. reflexivity. Qed.

Example os_path_split_cases :
  (Py.os_path_split "/tmp/sage/abc.tex", Py.os_path_split "/x.tex",
   Py.os_path_split "x.tex", Py.os_path_split "/tmp//x")
  = (("/tmp/sage", "abc.tex"), ("/", "x.tex"), ("", "x.tex"), ("/tmp", "x")).
Proof. reflexivity. Qed.

(** ** How the sample is handed to the program *)

Lemma all_chars_append (p : ascii -> bool) (s t : string) :
  Py.all_chars p (s +:+ t) = Py.all_chars p s && Py.all_chars p t.
Proof.
  induction s as [|c s IH]; [reflexivity|].
  rewrite append_cons. simpl. rewrite IH. apply andb_assoc.
Qed.

Lemma lstrip_by_nil_iff (p : ascii -> bool) (s : string) :
  Py.lstrip_by p s = EmptyString <-> Py.all_chars p s = true.
Proof.
  induction s as [|c s IH]; simpl; [tauto|].
  destruct (p c); simpl; [exact IH|]. split; discriminate.
Qed.

Lemma rstrip_by_all (p : ascii -> bool) (s : string) :
  Py.all_chars p s = true -> Py.rstrip_by p s = EmptyString.
Proof.
  induction s as [|c s IH]; simpl; [reflexivity|].
  intros H. apply andb_prop in H as [Hc Hs]. now rewrite Hc, (IH Hs).
Qed.

Lemma rstrip_by_snoc (p : ascii -> bool) (s : string) (c : ascii) :
  p c = true -> Py.rstrip_by p (s +:+ Py.str1 c) = Py.rstrip_by p s.
Proof.
  intros Hc. induction s as [|a s IH].
  - rewrite append_nil. simpl. now rewrite Hc.
  - rewrite append_cons. simpl. now rewrite IH.
Qed.

Lemma is_empty_snoc (s : string) (c : ascii) :
  Py.is_empty (s +:+ Py.str1 c) = false.
Proof. destruct s; reflexivity. Qed.

Lemma mem_cons (a c : ascii) (s : string) :
  Py.mem a (String c s) = Ascii.eqb a c || Py.mem a s.
Proof. reflexivity. Qed.

Lemma rsplit_sep_cons (c : ascii) (p : string) :
  Py.rsplit_sep (String c p) =
  if negb (Py.is_empty (Py.rsplit_sep p).1)
  then (String c (Py.rsplit_sep p).1, (Py.rsplit_sep p).2)
  else if Ascii.eqb c Py.sep then (Py.str1 c, (Py.rsplit_sep p).2)
       else (EmptyString, String c (Py.rsplit_sep p).2).
Proof.
  change (Py.rsplit_sep (String c p))
    with (let '(h, t) := Py.rsplit_sep p in
          if negb (Py.is_empty h) then (String c h, t)
          else if Ascii.eqb c Py.sep then (Py.str1 c, t)
               else (EmptyString, String c t)).
  now destruct (Py.rsplit_sep p).
Qed.

Lemma rsplit_sep_spec (p : string) :
  p = (Py.rsplit_sep p).1 +:+ (Py.rsplit_sep p).2
  /\ Py.mem Py.sep (Py.rsplit_sep p).2 = false.
Proof.
  induction p as [|c p [IH1 IH2]]; [auto|].
  rewrite rsplit_sep_cons.
  destruct (Py.rsplit_sep p) as [h t]. cbn [fst snd] in *.
  destruct h as [|a h]; cbn [Py.is_empty negb].
  - rewrite append_nil in IH1. subst t.
    destruct (Ascii.eqb_spec c Py.sep) as [->|Hc]; cbn [fst snd].
    + auto.
    + split; [reflexivity|]. rewrite mem_cons, IH2, orb_false_r.
      rewrite Ascii.eqb_sym. now apply Ascii.eqb_neq.
  - cbn [fst snd]. rewrite append_cons, <- IH1. auto.
Qed.

Lemma rsplit_sep_no_sep (file : string) :
  Py.mem Py.sep file = false -> Py.rsplit_sep file = (EmptyString, file).
Proof.
  induction file as [|c file IH]; [reflexivity|].
  rewrite mem_cons. intros H. apply orb_false_elim in H as [Hc Hf].
  rewrite rsplit_sep_cons, (IH Hf). cbn [fst snd Py.is_empty negb].
  rewrite Ascii.eqb_sym, Hc. reflexivity.
Qed.

Lemma rsplit_sep_join (dir file : string) :
  Py.mem Py.sep file = false ->
  Py.rsplit_sep (dir +:+ String Py.sep file)
  = (dir +:+ Py.str1 Py.sep, file).
Proof.
  intros Hf. induction dir as [|c dir IH].
  - rewrite !append_nil. rewrite rsplit_sep_cons, (rsplit_sep_no_sep file Hf).
    reflexivity.
  - rewrite !append_cons. rewrite rsplit_sep_cons, IH.
    cbn [fst snd]. rewrite is_empty_snoc. reflexivity.
Qed.

Lemma os_path_split_tail (p : string) :
  (Py.os_path_split p).2 = (Py.rsplit_sep p).2.
Proof.
  unfold Py.os_path_split. now destruct (Py.rsplit_sep p).
Qed.

Lemma os_path_split_join (dir file : string) :
  Py.mem Py.sep file = false ->
  dir <> EmptyString ->
  Py.rstrip_char Py.sep dir = dir ->
  Py.os_path_split (dir +:+ String Py.sep file) = (dir, file).
Proof.
  intros Hf Hne Hdir. unfold Py.os_path_split.
  rewrite (rsplit_sep_join dir file Hf), is_empty_snoc. simpl negb.
  assert (Hall : Py.all_sep (dir +:+ Py.str1 Py.sep) = false).
  { unfold Py.all_sep.
    destruct (Py.lstrip_by _ (dir +:+ Py.str1 Py.sep)) eqn:E; [|reflexivity].
    exfalso. apply lstrip_by_nil_iff in E.
    rewrite all_chars_append in E. apply andb_prop in E as [E _].
    apply rstrip_by_all in E. unfold Py.rstrip_char in Hdir. congruence. }
  rewrite Hall. simpl. unfold Py.rstrip_char in *.
  rewrite rstrip_by_snoc by apply Ascii.eqb_refl. now rewrite Hdir.
Qed.

Lemma is_functional_trace (env : Env) (self : Executable) (w : World) :
  trace (LaTeX.is_functional env self w).2
  = trace w ++ [Sample.event env self w].
Proof.
  rewrite is_functional_unfold. cbv zeta.
  destruct (Sample.launched env self w) as [[proc fs']|]; reflexivity.
Qed.

(** X1.  The functional check starts exactly one process: the shell line
    made of the feature's name, the flag and the last component of the
    scratch path, in the directory part of that path.  The file name on
    the line never contains a "/" and ends the scratch path.  For a
    scratch path [dir/leaf] the working directory is [dir] and the file
    is [leaf]; for a scratch path without "/" the working directory is
    the empty text. *)
Theorem program_runs_beside_the_sample
    (env : Env) (self : Executable) (w : World) :
  let path := Sample.scratch env w in
  let cwd := (Py.os_path_split path).1 in
  let file := (Py.os_path_split path).2 in
  trace (LaTeX.is_functional env self w).2
  = trace w
    ++ [ERun (Shell (name self +:+ " -interaction=nonstopmode " +:+ file))
          (Some cwd)]
  /\ Py.mem "/" file = false
  /\ (exists front, path = front +:+ file)
  /\ (forall dir leaf,
        path = dir +:+ "/" +:+ leaf ->
        Py.mem "/" leaf = false ->
        dir <> EmptyString ->
        Py.rstrip_char "/" dir = dir ->
        cwd = dir /\ file = leaf)
  /\ (Py.mem "/" path = false -> cwd = EmptyString /\ file = path).
Proof.
  cbv zeta. repeat apply conj.
  - apply is_functional_trace.
  - rewrite os_path_split_tail. apply rsplit_sep_spec.
  - rewrite os_path_split_tail. eexists. apply rsplit_sep_spec.
  - intros dir leaf -> Hleaf Hne Hdir.
    change (dir +:+ "/" +:+ leaf) with (dir +:+ String Py.sep leaf).
    now rewrite (os_path_split_join dir leaf Hleaf Hne Hdir).
  - intros H. unfold Py.os_path_split.
    now rewrite (rsplit_sep_no_sep _ H).
Qed.

Lemma program_runs_beside_the_sample_witness :
  trace (LaTeX.is_functional (Scenario.installed 0) xelatex Scenario.start).2
  = [ERun (Shell "xelatex -interaction=nonstopmode tmp_0.tex")
       (Some "/tmp/sage")].
Proof.
  destruct (program_runs_beside_the_sample (Scenario.installed 0) xelatex
              Scenario.start) as (Htr & _ & _ & Hsplit & _).
  destruct (Hsplit "/tmp/sage" "tmp_0.tex") as [Hcwd Hfile];
    [reflexivity | reflexivity | discriminate | reflexivity |].
  rewrite Htr, Hcwd, Hfile. reflexivity.
Defined.

(** ** Edge cases of the path query *)

Lemma lstrip_by_head (p : ascii -> bool) (s : string) (c : ascii) (r : string) :
  Py.lstrip_by p s = String c r -> p c = false.
Proof.
  induction s as [|a s IH]; simpl; [discriminate|].
  destruct (p a) eqn:Ha; [exact IH|]. intros [= <- _]. exact Ha.
Qed.

Lemma strip_nil_iff (s : string) :
  Py.strip s = EmptyString <-> Py.all_chars Py.isspace s = true.
Proof.
  unfold Py.strip, Py.rstrip, Py.lstrip. split.
  - intros H. apply lstrip_by_nil_iff.
    destruct (Py.lstrip_by Py.isspace s) as [|c r] eqn:E; [reflexivity|].
    apply lstrip_by_head in E. simpl in H. rewrite E in H. discriminate.
  - intros H. apply lstrip_by_nil_iff in H. now rewrite H.
Qed.

(** X2.  A resolver that exits with status zero is trusted whatever it
    printed: the path query returns the empty path exactly when the
    output was empty or all whitespace, and it never raises then. *)
Theorem blank_output_is_an_empty_path
    (env : Env) (self : TeXFile) (w : World)
    (proc : CompletedProcess) (fs' : FS) :
  Resolver.launched env self w = Some (proc, fs') ->
  returncode proc = 0 ->
  (exists path, (TeXFile.absolute_filename env self w).1 = Ok path)
  /\ ((TeXFile.absolute_filename env self w).1 = Ok EmptyString
      <-> Py.all_chars Py.isspace (stdout proc) = true).
Proof.
  intros Hrun Hrc. rewrite absolute_filename_out, Hrun, Hrc. simpl.
  split; [eauto|]. rewrite <- strip_nil_iff.
  split; [now intros [= ->] | now intros ->].
Qed.

Lemma blank_output_is_an_empty_path_witness :
  (TeXFile.absolute_filename (Scenario.failing_resolver 0) Scenario.article
     Scenario.start).1 = Ok EmptyString.
Proof.
  destruct (blank_output_is_an_empty_path (Scenario.failing_resolver 0)
              Scenario.article Scenario.start
              (Scenario.completed 0 EmptyString) ∅ eq_refl eq_refl)
    as [_ H].
  apply H. reflexivity.
Defined.

Lemma absolute_filename_frame (env : Env) (self : TeXFile) (w : World) :
  trace (TeXFile.absolute_filename env self w).2
  = trace w ++ [Resolver.event self]
  /\ cache (TeXFile.absolute_filename env self w).2 = cache w
  /\ tmp_count (TeXFile.absolute_filename env self w).2 = tmp_count w.
Proof.
  rewrite absolute_filename_unfold. cbv zeta.
  destruct (Resolver.launched env self w) as [[proc fs']|]; auto.
Qed.

(** X3.  The path query keeps nothing for later: [n] consecutive queries
    start the resolver [n] times, and none of them touches the result
    cache or asks for a temporary name. *)
Theorem path_queries_are_not_memoised
    (env : Env) (self : TeXFile) (n : nat) (w : World) :
  let w' := calls n (TeXFile.absolute_filename env self) w in
  trace w' = trace w ++ replicate n (Resolver.event self)
  /\ cache w' = cache w
  /\ tmp_count w' = tmp_count w.
Proof.
  cbv zeta. revert w. induction n as [|n IH]; intros w; simpl.
  - rewrite app_nil_r. auto.
  - destruct (IH (TeXFile.absolute_filename env self w).2) as (-> & -> & ->).
    destruct (absolute_filename_frame env self w) as (-> & -> & ->).
    rewrite <- app_assoc. auto.
Qed.

(** ** Package identifiers, names and probes *)

Lemma length_append (s t : string) :
  String.length (s +:+ t) = (String.length s + String.length t)%nat.
Proof.
  induction s as [|c s IH]; [reflexivity|].
  rewrite append_cons. simpl. now rewrite IH.
Qed.

Lemma append_inj_r (s s' t : string) : s +:+ t = s' +:+ t -> s = s'.
Proof.
  revert s'. induction s as [|c s IH]; intros [|c' s'] H.
  - reflexivity.
  - apply (f_equal String.length) in H.
    rewrite append_nil, append_cons in H. simpl in H.
    rewrite length_append in H. lia.
  - apply (f_equal String.length) in H.
    rewrite append_nil, append_cons in H. simpl in H.
    rewrite length_append in H. lia.
  - rewrite !append_cons in H. injection H as -> H. f_equal. now apply IH.
Qed.

Lemma replace_id (old new : ascii) (s : string) :
  Py.mem old s = false -> Py.replace old new s = s.
Proof.
  induction s as [|c s IH]; [reflexivity|].
  rewrite mem_cons. intros H. apply orb_false_elim in H as [Hc Hs].
  simpl. rewrite (IH Hs), Ascii.eqb_sym, Hc. reflexivity.
Qed.

Lemma package_name_eq (p : string) :
  TeXFile_name (LaTeXPackage.__classcall__ p)
  = "latex_package_" +:+ Py.replace "-" "_" p.
Proof.
  unfold LaTeXPackage.__classcall__. simpl.
  rewrite replace_append. reflexivity.
Qed.

(** X4.  The package probe keeps the identifier it was built from: two
    identifiers give the same probe, or the same probed file, only if
    they are the same identifier. *)
Theorem package_probe_keeps_identifier (p q : string) :
  (LaTeXPackage.__classcall__ p = LaTeXPackage.__classcall__ q <-> p = q)
  /\ (filename (LaTeXPackage.__classcall__ p)
      = filename (LaTeXPackage.__classcall__ q) <-> p = q).
Proof.
  assert (H : filename (LaTeXPackage.__classcall__ p)
              = filename (LaTeXPackage.__classcall__ q) -> p = q).
  { simpl. apply append_inj_r. }
  split; split; try (now intros ->); [|exact H].
  intros E. apply H. now rewrite E.
Qed.

(** X5.  The derived name does not identify the package: two identifiers
    get the same name exactly when they agree after "-" is replaced by
    "_".  An identifier without "-" is kept as it is after the prefix; an
    identifier with a "-" shares its name with another identifier, whose
    probe is a different one. *)
Theorem package_names_can_collide (p : string) :
  (forall q,
     name (LaTeXPackage.__classcall__ p) = name (LaTeXPackage.__classcall__ q)
     <-> Py.replace "-" "_" p = Py.replace "-" "_" q)
  /\ (Py.mem "-" p = false ->
      name (LaTeXPackage.__classcall__ p) = "latex_package_" +:+ p)
  /\ (Py.mem "-" p = true ->
      exists q,
        q <> p
        /\ name (LaTeXPackage.__classcall__ q)
           = name (LaTeXPackage.__classcall__ p)
        /\ LaTeXPackage.__classcall__ q <> LaTeXPackage.__classcall__ p).
Proof.
  repeat apply conj.
  - intros q. cbn [name]. rewrite !package_name_eq. split.
    + apply append_inj_l.
    + now intros ->.
  - intros H. cbn [name]. rewrite package_name_eq. now rewrite replace_id.
  - intros H. exists (Py.replace "-" "_" p).
    assert (Hne : Py.replace "-" "_" p <> p).
    { intros E.
      assert (Hfree : Py.mem "-" (Py.replace "-" "_" p) = false)
        by (apply replace_removes; discriminate).
      rewrite E in Hfree. congruence. }
    split; [exact Hne|]. split.
    + cbn [name]. rewrite !package_name_eq. f_equal.
      apply replace_id, replace_removes. discriminate.
    + intros E. apply Hne.
      apply (f_equal filename) in E. simpl in E.
      now apply append_inj_r in E.
Qed.

Lemma package_names_can_collide_witness :
  name (LaTeXPackage.__classcall__ "graphics") = "latex_package_graphics"
  /\ exists q,
       q <> "tkz-graph"
       /\ name (LaTeXPackage.__classcall__ q)
          = name (LaTeXPackage.__classcall__ "tkz-graph")
       /\ LaTeXPackage.__classcall__ q <> LaTeXPackage.__classcall__ "tkz-graph".
Proof.
  split.
  - destruct (package_names_can_collide "graphics") as (_ & H & _).
    apply H. reflexivity.
  - destruct (package_names_can_collide "tkz-graph") as (_ & _ & H).
    apply H. reflexivity.
Defined.

(** ** Repeated and failed functional checks *)



(** X7.  A program that cannot be launched is not reported as a negative
    result: the functional check raises the operating-system error.  The
    temporary name is used up and the sample document stays at the
    scratch path. *)
Theorem functional_check_launch_failure
    (env : Env) (self : Executable) (w : World) :
  Sample.launched env self w = None ->
  (LaTeX.is_functional env self w).1 = Raise OSError
  /\ fs (LaTeX.is_functional env self w).2 !! Sample.scratch env w
     = Some LaTeX.content
  /\ (forall p,
        p <> Sample.scratch env w ->
        fs (LaTeX.is_functional env self w).2 !! p = fs w !! p)
  /\ tmp_count (LaTeX.is_functional env self w).2 = S (tmp_count w).
Proof.
  intros H. rewrite is_functional_unfold, H. cbv zeta. simpl.
  repeat apply conj.
  - reflexivity.
  - apply lookup_insert_eq.
  - intros p Hp. unfold Sample.prepared. now rewrite lookup_insert_ne.
  - reflexivity.
Qed.

Lemma functional_check_launch_failure_witness :
  (LaTeX.is_functional unlaunchable lualatex Scenario.start).1 = Raise OSError
  /\ fs (LaTeX.is_functional unlaunchable lualatex Scenario.start).2
     !! "/tmp/sage/tmp_0.tex" = Some LaTeX.content.
Proof.
  destruct (functional_check_launch_failure unlaunchable lualatex
              Scenario.start eq_refl) as (H1 & H2 & _).
  split; [exact H1 | exact H2].
Defined.

(** ** The verdict on a TeX file *)



(** ** The registry *)

(** X9.  The probes of [all_features] have pairwise different names, and
    every member a listed TeX file depends on is itself listed, before
    that TeX file. *)
Theorem registry_is_closed :
  NoDup (name <$> all_features)
  /\ (forall i (t : TeXFile) (m : Executable),
        all_features !! i = Some (IsTeXFile t) ->
        m ∈ _features t ->
        exists j, (j < i)%nat /\ all_features !! j = Some (IsExecutable m)).
Proof.
  split.
  - apply (bool_decide_unpack _). vm_compute. exact I.
  - intros i t m Hi Hm.
    destruct i as [|[|[|[|[|i]]]]]; simpl in Hi; try discriminate Hi.
    injection Hi as <-. simpl in Hm.
    apply list_elem_of_singleton in Hm as ->.
    exists 1%nat. split; [lia | reflexivity].
Qed.

Lemma registry_is_closed_witness :
  exists j, (j < 4)%nat /\ all_features !! j = Some (IsExecutable pdflatex).
Proof.
  destruct registry_is_closed as [_ H].
  apply (H 4%nat (LaTeXPackage.__classcall__ "tkz-graph") pdflatex).
  - reflexivity.
  - apply list_elem_of_singleton. reflexivity.
Defined.
